(** * bauh: the abstract package model and the path constants

  A shallow embedding of [bauh/api/paths.py] and
  [bauh/api/abstract/model.py], and the properties their specification
  states about them. *)

From Stdlib Require Import String Ascii List ZArith Bool Lia.
From Stdlib Require Import Permutation.
Import ListNotations.
Open Scope string_scope.

(** ** [bauh/api/paths.py] *)

Module Paths.

(** What the module reads from its surroundings when it is imported:
    [bauh.__app_name__], [bauh.api.user.is_root()], [str(Path.home())] and
    [getpass.getuser()]. None of the four is defined in the two files. *)
Record Env : Type := mkEnv {
  app_name : string;
  is_root  : bool;
  home     : string;
  getuser  : string
}.

Definition CACHE_PATH (e : Env) : string :=
  if is_root e then "/var/cache/" ++ app_name e
  else home e ++ "/.cache/" ++ app_name e.

Definition CONFIG_DIR (e : Env) : string :=
  if is_root e then "/etc/" ++ app_name e
  else home e ++ "/.config/" ++ app_name e.

Definition USER_THEMES_PATH (e : Env) : string :=
  home e ++ "/.local/share/bauh/themes".

Definition DESKTOP_ENTRIES_DIR (e : Env) : string :=
  home e ++ "/.local/share/applications".

Definition TEMP_DIR (e : Env) : string :=
  "/tmp/" ++ app_name e ++ "@" ++ getuser e.

Definition LOGS_DIR (e : Env) : string :=
  TEMP_DIR e ++ "/logs".

Definition AUTOSTART_DIR (e : Env) : string :=
  if is_root e then "/etc/xdg/autostart"
  else home e ++ "/.config/autostart".

(** The seven module-level names, and the value each is bound to. *)
Inductive PathConst : Type :=
| CachePath | ConfigDir | UserThemesPath | DesktopEntriesDir
| TempDir | LogsDir | AutostartDir.

Definition path_of (c : PathConst) : Env -> string :=
  match c with
  | CachePath => CACHE_PATH
  | ConfigDir => CONFIG_DIR
  | UserThemesPath => USER_THEMES_PATH
  | DesktopEntriesDir => DESKTOP_ENTRIES_DIR
  | TempDir => TEMP_DIR
  | LogsDir => LOGS_DIR
  | AutostartDir => AUTOSTART_DIR
  end.

(** A constant switches its base directory on the effective user when
    it is a system path (fixed by the application name alone) for root
    and the home directory followed by a fixed relative part otherwise. *)
Definition switches_on_root (c : PathConst) : Prop :=
  exists sys rel : string -> string,
    forall e, path_of c e =
              if is_root e then sys (app_name e)
              else home e ++ rel (app_name e).

Definition conditional (c : PathConst) : bool :=
  match c with
  | CachePath | ConfigDir | AutostartDir => true
  | _ => false
  end.

Definition root_env (h : string) : Env := mkEnv "bauh" true h "root".
Definition user_env (h : string) : Env := mkEnv "bauh" false h "ana".

End Paths.

(** ** The fragment of Python the model module runs on *)

Module Python.

(** The two built-in exceptions the code of [model.py] can end in. *)
Inductive exn : Type := IndexError | TypeError.

Inductive result (A : Type) : Type :=
| Ok (a : A)
| Raise (e : exn).
Arguments Ok {A} a.
Arguments Raise {A} e.

Definition bind {A B : Type} (r : result A) (k : A -> result B) : result B :=
  match r with
  | Ok a => k a
  | Raise e => Raise e
  end.

Definition completes {A : Type} (r : result A) : Prop :=
  exists a, r = Ok a.

(** [s.split(sep)] for a one-character separator: the pieces between the
    separators, in order; there is always at least one piece. *)
Fixpoint split (sep : ascii) (s : string) : list string :=
  match s with
  | EmptyString => [EmptyString]
  | String c s' =>
      if Ascii.eqb c sep then EmptyString :: split sep s'
      else match split sep s' with
           | [] => [String c EmptyString]
           | piece :: rest => String c piece :: rest
           end
  end.

(** [l[i]] for [i >= 0]. *)
Definition getitem {A : Type} (l : list A) (i : nat) : result A :=
  match nth_error l i with
  | Some x => Ok x
  | None => Raise IndexError
  end.

(** The number of occurrences of a character. *)
Fixpoint count (sep : ascii) (s : string) : nat :=
  match s with
  | EmptyString => 0
  | String c s' => (if Ascii.eqb c sep then 1 else 0) + count sep s'
  end.

(** Truth value of a [str]: false for the empty string only. *)
Definition str_truthy (s : string) : bool :=
  match s with
  | EmptyString => false
  | String _ _ => true
  end.

End Python.

Declare Scope py_scope.
Notation "x <- c1 ;; c2" := (Python.bind c1 (fun x => c2))
(at level 61, c1 at next level, right associativity) : py_scope.

(** ** [bauh/api/abstract/model.py] *)

Module Model.
Import Python.
Open Scope py_scope.

(** *** Values *)

Inductive SuggestionPriority : Type := LOW | MEDIUM | HIGH | TOP.

(** The [value] of an enum member, as the class body assigns it. *)
Definition value (p : SuggestionPriority) : Z :=
  match p with
  | LOW => 0
  | MEDIUM => 1
  | HIGH => 2
  | TOP => 3
  end%Z.

(** The [name] of an enum member. *)
Definition member_name (p : SuggestionPriority) : string :=
  match p with
  | LOW => "LOW"
  | MEDIUM => "MEDIUM"
  | HIGH => "HIGH"
  | TOP => "TOP"
  end.

(** The Python objects that fields and operands range over: [None],
    [NotImplemented], booleans, strings, lists, members of
    [SuggestionPriority], and any other object (a [SoftwareManager], say),
    known by its address and compared by identity. Type hints are not
    enforced when the program runs, so a field annotated [str] can hold
    any of them. *)
#[warnings="-register-all"]
Inductive PyVal : Type :=
| VNone
| VNotImplemented
| VBool (b : bool)
| VStr (s : string)
| VList (items : list PyVal)
| VPriority (p : SuggestionPriority)
| VObj (address : nat).

(** Induction on values that reaches into the items of a list. *)
Section ValueInduction.
Variable P : PyVal -> Prop.
Hypothesis HNone : P VNone.
Hypothesis HNotImplemented : P VNotImplemented.
Hypothesis HBool : forall b, P (VBool b).
Hypothesis HStr : forall s, P (VStr s).
Hypothesis HList : forall items, Forall P items -> P (VList items).
Hypothesis HPriority : forall p, P (VPriority p).
Hypothesis HObj : forall a, P (VObj a).

Fixpoint PyVal_deep_ind (v : PyVal) : P v :=
  match v with
  | VNone => HNone
  | VNotImplemented => HNotImplemented
  | VBool b => HBool b
  | VStr s => HStr s
  | VList items =>
      HList items
        ((fix each (l : list PyVal) : Forall P l :=
            match l with
            | [] => Forall_nil P
            | x :: l' => Forall_cons x (PyVal_deep_ind x) (each l')
            end) items)
  | VPriority p => HPriority p
  | VObj a => HObj a
  end.
End ValueInduction.

Definition priority_eqb (p q : SuggestionPriority) : bool :=
  Z.eqb (value p) (value q).

(** [a == b] on these objects. *)
Fixpoint py_eq (a b : PyVal) : bool :=
  match a, b with
  | VNone, VNone => true
  | VNotImplemented, VNotImplemented => true
  | VBool x, VBool y => Bool.eqb x y
  | VStr x, VStr y => String.eqb x y
  | VList xs, VList ys =>
      (fix items_eq (xs ys : list PyVal) {struct xs} : bool :=
         match xs, ys with
         | [], [] => true
         | x :: xs', y :: ys' => py_eq x y && items_eq xs' ys'
         | _, _ => false
         end) xs ys
  | VPriority p, VPriority q => priority_eqb p q
  | VObj x, VObj y => Nat.eqb x y
  | _, _ => false
  end.

(** [bool(v)]; for [NotImplemented] the answer the interpreter gives
    together with a deprecation warning. *)
Definition truthy (v : PyVal) : bool :=
  match v with
  | VNone => false
  | VNotImplemented => true
  | VBool b => b
  | VStr s => str_truthy s
  | VList items => match items with [] => false | _ => true end
  | VPriority _ => true
  | VObj _ => true
  end.

(** What [hash] returns depends on the interpreter and on the run: [str]
    hashes are salted and object hashes come from addresses. *)
Class Interp : Type := {
  hash_str : string -> Z;
  hash_address : nat -> Z;
  hash_None : Z;
  hash_NotImplemented : Z
}.

(** [hash(v)]: a list is unhashable, an enum member hashes its name. *)
Definition py_hash {I : Interp} (v : PyVal) : result Z :=
  match v with
  | VNone => Ok hash_None
  | VNotImplemented => Ok hash_NotImplemented
  | VBool b => Ok (if b then 1 else 0)%Z
  | VStr s => Ok (hash_str s)
  | VList _ => Raise TypeError
  | VPriority p => Ok (hash_str (member_name p))
  | VObj a => Ok (hash_address a)
  end.

Definition hashable (v : PyVal) : bool :=
  match v with
  | VList _ => false
  | _ => true
  end.

(** [sum(hash(v) for v in vs)]: the hashes are taken from left to right
    and the first unhashable value ends the sum with its exception. *)
Fixpoint sum_hashes {I : Interp} (acc : Z) (vs : list PyVal) : result Z :=
  match vs with
  | [] => Ok acc
  | v :: vs' => h <- py_hash v ;; sum_hashes (acc + h)%Z vs'
  end.

(** An instance's [__dict__]: attribute names and values in the order of
    their first assignment. *)
Definition dict : Type := list (string * PyVal).

Fixpoint dict_get (k : string) (d : dict) : option PyVal :=
  match d with
  | [] => None
  | (k', v) :: d' => if String.eqb k k' then Some v else dict_get k d'
  end.

Definition dict_values (d : dict) : list PyVal := map snd d.

(** [d1 == d2]: the same number of entries, and every key of [d1] is in
    [d2] with an equal value. *)
Definition dict_eq (d1 d2 : dict) : bool :=
  Nat.eqb (length d1) (length d2) &&
  forallb (fun kv => match dict_get (fst kv) d2 with
                     | Some v => py_eq (snd kv) v
                     | None => false
                     end) d1.

(** The second operand of a method of class [A]: an instance of [A], or
    anything else. *)
Inductive Operand (A : Type) : Type :=
| Instance (a : A)
| Foreign (v : PyVal).
Arguments Instance {A} a.
Arguments Foreign {A} v.

(** *** class CustomSoftwareAction *)

Module CustomSoftwareAction.

(** An instance: its identity and the twelve attributes [__init__] sets. *)
Record t : Type := mk {
  address : nat;
  i18n_label_key : PyVal;
  i18n_status_key : PyVal;
  icon_path : PyVal;
  manager_method : PyVal;
  requires_root : PyVal;
  manager : PyVal;
  backup : PyVal;
  refresh : PyVal;
  i18n_confirm_key : PyVal;
  requires_internet : PyVal;
  requires_confirmation : PyVal;
  i18n_description_key : PyVal
}.

(** [self.__dict__], in the order [__init__] assigns the attributes. *)
Definition __dict__ (self : t) : dict :=
  [ ("i18n_label_key", i18n_label_key self);
    ("i18n_status_key", i18n_status_key self);
    ("icon_path", icon_path self);
    ("manager_method", manager_method self);
    ("requires_root", requires_root self);
    ("manager", manager self);
    ("backup", backup self);
    ("refresh", refresh self);
    ("i18n_confirm_key", i18n_confirm_key self);
    ("requires_internet", requires_internet self);
    ("requires_confirmation", requires_confirmation self);
    ("i18n_description_key", i18n_description_key self) ].

Definition __init__ (address : nat)
    (i18n_label_key i18n_status_key icon_path manager_method requires_root
     manager backup refresh i18n_confirm_key requires_internet
     requires_confirmation i18n_description_key : PyVal) : t :=
  mk address i18n_label_key i18n_status_key icon_path manager_method
     requires_root manager backup refresh i18n_confirm_key requires_internet
     requires_confirmation i18n_description_key.

Definition __hash__ {I : Interp} (self : t) : result Z :=
  sum_hashes 0 (dict_values (__dict__ self)).

Definition __eq__ (self : t) (other : Operand t) : bool :=
  match other with
  | Instance o => dict_eq (__dict__ self) (__dict__ o)
  | Foreign _ => false
  end.

End CustomSoftwareAction.

(** *** class PackageStatus *)

Inductive PackageStatus : Type := READY | LOADING_DATA.

(** *** class SoftwarePackage *)

Module SoftwarePackage.

(** The attributes of an instance, with the types the constructor
    declares for them ([None] is the default of the optional ones). *)
Record t : Type := mk {
  id : option string;
  name : option string;
  description : option string;
  status : PackageStatus;
  version : option string;
  latest_version : option string;
  icon_url : option string;
  installed : bool;
  update : bool;
  size : option Z;
  categories : option (list string);
  license : option string;
  gem_name : string
}.

(** What a concrete subclass brings: the name of the module that defines
    it ([self.__module__]) and the abstract methods the methods below
    call, with the result types their docstrings give. The class is
    abstract, so every instance belongs to such a subclass. *)
Record Subclass : Type := {
  __module__ : string;
  get_type : t -> string;
  is_application : t -> bool
}.

Section Methods.
Variable CACHE_DIR : string.
Variable cls : Subclass.

Definition __init__ (id version name description latest_version icon_url : option string)
    (status : PackageStatus) (installed update : bool) (size : option Z)
    (categories : option (list string)) (license : option string) : result t :=
  gem <- getitem (split "." (__module__ cls)) 2 ;;
  Ok (mk id name description status version latest_version icon_url
         installed update size categories license gem).

Definition can_be_uninstalled (self : t) : bool := installed self.

Definition can_be_installed (self : t) : bool := negb (installed self).

Definition is_update_ignored (self : t) : bool := false.

Definition supports_ignored_updates (self : t) : bool := false.

Definition supports_disk_cache (self : t) : bool :=
  installed self && is_application cls self.

Definition get_disk_cache_path (self : t) : string :=
  CACHE_DIR ++ "/" ++ get_type cls self.

Definition can_be_updated (self : t) : bool :=
  installed self && update self.

(** [None] stands for the method falling off its end, which returns [None].
    The call [self.get_disk_cache_path()] is bound here to the method
    above, as it is for an instance of a class that keeps it; module
    [Dispatch] has the call as it is resolved for any concrete class. *)
Definition get_disk_icon_path (self : t) : option string :=
  let path := get_disk_cache_path self in
  if str_truthy path then Some (path ++ "/icon.png") else None.

Definition get_disk_data_path (self : t) : option string :=
  let path := get_disk_cache_path self in
  if str_truthy path then Some (path ++ "/data.json") else None.

Definition is_trustable (self : t) : bool := false.

Definition has_screenshots (self : t) : bool := negb (installed self).

Definition get_name_tooltip (self : t) : option string := name self.

Definition get_display_name (self : t) : option string := name self.

End Methods.

End SoftwarePackage.

(** *** class PackageUpdate *)

Module PackageUpdate.

Record t : Type := mk {
  address : nat;
  id : PyVal;
  name : PyVal;
  version : PyVal;
  type : PyVal
}.

Definition __init__ (address : nat) (pkg_id version pkg_type name : PyVal) : t :=
  mk address pkg_id name version pkg_type.

Definition __dict__ (self : t) : dict :=
  [ ("id", id self); ("name", name self);
    ("version", version self); ("type", type self) ].

Definition __eq__ (self : t) (other : Operand t) : bool :=
  match other with
  | Instance o => dict_eq (__dict__ self) (__dict__ o)
  | Foreign _ => false
  end.

Definition __hash__ {I : Interp} (self : t) : result Z :=
  sum_hashes 0 (dict_values (__dict__ self)).

End PackageUpdate.

(** *** class PackageHistory *)

Module PackageHistory.

Record t : Type := mk {
  pkg : SoftwarePackage.t;
  history : list dict;
  pkg_status_idx : Z
}.

Definition __init__ (pkg : SoftwarePackage.t) (history : list dict)
    (pkg_status_idx : Z) : t :=
  mk pkg history pkg_status_idx.

Definition empyt (pkg : SoftwarePackage.t) : t :=
  __init__ pkg [] (-1)%Z.

End PackageHistory.

(** *** The comparison methods of SuggestionPriority *)

Definition is_priority (v : PyVal) : bool :=
  match v with
  | VPriority _ => true
  | _ => false
  end.

Definition __gt__ (self : SuggestionPriority) (other : PyVal) : PyVal :=
  match other with
  | VPriority o => VBool (value self >? value o)%Z
  | _ => VNone
  end.

Definition __lt__ (self : SuggestionPriority) (other : PyVal) : PyVal :=
  match other with
  | VPriority o => VBool (value self <? value o)%Z
  | _ => VNone
  end.

(** How the interpreter evaluates [a > b] (or [a < b]) from what
    [a.__gt__(b)] returned and what the reflected [b.__lt__(a)] would
    return: the reflected method is asked only after [NotImplemented]. *)
Definition compare_op (first reflected : PyVal) : result PyVal :=
  match first with
  | VNotImplemented =>
      match reflected with
      | VNotImplemented => Raise TypeError
      | r => Ok r
      end
  | r => Ok r
  end.

(** [a > b] and [a < b] between two members, as truth values. *)
Definition gt (a b : SuggestionPriority) : bool := truthy (__gt__ a (VPriority b)).
Definition lt (a b : SuggestionPriority) : bool := truthy (__lt__ a (VPriority b)).

End Model.

(** ** The text forms of the model classes *)

Module Text.
Import Python Model.

(** [str] of a list and of an object that defines no [__str__] depend on
    [repr] and on addresses; they are left to the interpreter. *)
Class Display : Type := {
  repr_list : list PyVal -> string;
  str_object : nat -> string
}.

(** [format(v, '')], which is what a replacement field of an f-string
    applies to its value. *)
Definition py_str {D : Display} (v : PyVal) : string :=
  match v with
  | VNone => "None"
  | VNotImplemented => "NotImplemented"
  | VBool b => if b then "True" else "False"
  | VStr s => s
  | VList items => repr_list items
  | VPriority p => "SuggestionPriority." ++ member_name p
  | VObj a => str_object a
  end.

(** The same for an attribute declared [str] whose default is [None]. *)
Definition opt_str (o : option string) : string :=
  match o with
  | Some s => s
  | None => "None"
  end.

(** [sorted(d.items())]: the pairs in ascending order of their keys. The
    keys of a dict differ from one another, so the order of two pairs is
    settled by their keys and the values are never compared. *)
Fixpoint insert_item (kv : string * PyVal) (l : dict) : dict :=
  match l with
  | [] => [kv]
  | kv' :: l' =>
      if String.ltb (fst kv) (fst kv') then kv :: kv' :: l'
      else kv' :: insert_item kv l'
  end.

Definition sorted_items (d : dict) : dict :=
  fold_left (fun acc kv => insert_item kv acc) d [].

(** [CustomSoftwareAction.__repr__]; [class_name] is
    [self.__class__.__name__]. *)
Definition action_repr {D : Display} (class_name : string)
    (self : CustomSoftwareAction.t) : string :=
  class_name ++ " (label=" ++ py_str (CustomSoftwareAction.i18n_label_key self)
    ++ ", method=" ++ py_str (CustomSoftwareAction.manager_method self) ++ ")".

(** [SoftwarePackage.__str__]. *)
Definition package_str (class_name : string) (self : SoftwarePackage.t) : string :=
  class_name ++ " (id=" ++ opt_str (SoftwarePackage.id self)
    ++ ", name=" ++ opt_str (SoftwarePackage.name self) ++ ")".

(** [PackageUpdate.__str__]. *)
Definition update_str {D : Display} (class_name : string)
    (self : PackageUpdate.t) : string :=
  let attrs :=
    String.concat ", "
      (map (fun pv => fst pv ++ "=" ++ py_str (snd pv))
           (sorted_items (PackageUpdate.__dict__ self))) in
  class_name ++ " (" ++ attrs ++ ")".

(** [SoftwarePackage.get_custom_actions] and [get_update_tip]: both
    bodies end without a value, so both return [None]. *)
Definition get_custom_actions (self : SoftwarePackage.t)
  : option (list CustomSoftwareAction.t) := None.

Definition get_update_tip (self : SoftwarePackage.t) : option string := None.

(** class PackageSuggestion *)
Record PackageSuggestion : Type := mkSuggestion {
  package : SoftwarePackage.t;
  priority : SuggestionPriority
}.

Definition toy_display : Display := {|
  repr_list := fun items => "[...]";
  str_object := fun a => "<object>"
|}.

End Text.

(** ** Which path constants follow the home directory *)

Module PathKinds.
Import Paths.

(** The constants whose value for an ordinary user starts with the home
    directory. *)
Definition under_home (c : PathConst) : bool :=
  match c with
  | TempDir | LogsDir => false
  | _ => true
  end.

End PathKinds.

(** ** The last character of a string *)

Module StringOps.

Fixpoint last_char (s : string) : option ascii :=
  match s with
  | EmptyString => None
  | String c EmptyString => Some c
  | String _ s' => last_char s'
  end.

End StringOps.

(** ** Sample inputs *)

Module Samples.
Import Python Model.

(** An interpreter whose hashes are easy to follow. *)
Definition toy_interp : Interp := {|
  hash_str := fun s => Z.of_nat (String.length s);
  hash_address := fun a => Z.of_nat a;
  hash_None := 7;
  hash_NotImplemented := 11
|}.

(** The action "purge config", as a backend would build it. *)
Definition purge (address : nat) (icon : PyVal) : CustomSoftwareAction.t :=
  CustomSoftwareAction.__init__ address
    (VStr "action.purge") (VStr "action.purge.status") icon (VStr "purge")
    (VBool true) (VObj 4096) (VBool false) (VBool true) VNone (VBool false)
    (VBool true) VNone.

Definition vim_update (address : nat) : PackageUpdate.t :=
  PackageUpdate.__init__ address (VStr "vim") (VStr "9.1") (VStr "arch") (VStr "vim").

(** A backend defined where the gems live, and one defined two levels up. *)
Definition arch_class : SoftwarePackage.Subclass := {|
  SoftwarePackage.__module__ := "bauh.gems.arch.model";
  SoftwarePackage.get_type := fun _ => "arch";
  SoftwarePackage.is_application := fun _ => true
|}.


Definition new_package (cls : SoftwarePackage.Subclass) (installed update : bool)
  : result SoftwarePackage.t :=
  SoftwarePackage.__init__ cls (Some "vim") (Some "9.0") (Some "vim") None
    (Some "9.1") None READY installed update None None None.

Definition vim : SoftwarePackage.t :=
  SoftwarePackage.mk (Some "vim") (Some "vim") None READY (Some "9.0") (Some "9.1")
    None true true None None None "arch".

End Samples.

(** ** Method resolution for the disk cache paths *)

Module Dispatch.
Import Python Model.

(** A concrete class, which may redefine [get_disk_cache_path]: [None]
    when it keeps the method of [SoftwarePackage], otherwise the body it
    puts in its place, which returns a [str] or [None]. *)
Record ConcreteClass : Type := {
  base : SoftwarePackage.Subclass;
  override_get_disk_cache_path : option (SoftwarePackage.t -> option string)
}.

(** [self.get_disk_cache_path()], resolved on the class of [self];
    [None] is Python's [None]. *)
Definition get_disk_cache_path (CACHE_DIR : string) (cls : ConcreteClass)
    (self : SoftwarePackage.t) : option string :=
  match override_get_disk_cache_path cls with
  | Some body => body self
  | None => Some (SoftwarePackage.get_disk_cache_path CACHE_DIR (base cls) self)
  end.

(** Truth value of a [str] or [None]: false for [None] and for ''. *)
Definition path_truthy (path : option string) : bool :=
  match path with
  | Some s => str_truthy s
  | None => false
  end.

(** ['{}/...'.format(path)] for a path that passed the guard. *)
Definition with_suffix (path : option string) (suffix : string) : string :=
  match path with
  | Some s => s ++ suffix
  | None => "None" ++ suffix
  end.

Definition get_disk_icon_path (CACHE_DIR : string) (cls : ConcreteClass)
    (self : SoftwarePackage.t) : option string :=
  let path := get_disk_cache_path CACHE_DIR cls self in
  if path_truthy path then Some (with_suffix path "/icon.png") else None.

Definition get_disk_data_path (CACHE_DIR : string) (cls : ConcreteClass)
    (self : SoftwarePackage.t) : option string :=
  let path := get_disk_cache_path CACHE_DIR cls self in
  if path_truthy path then Some (with_suffix path "/data.json") else None.

(** A class that keeps the default, and one whose cache path is a
    directory named after the package and [None] for a package without a
    name. *)
Definition arch_concrete : ConcreteClass := {|
  base := Samples.arch_class;
  override_get_disk_cache_path := None
|}.

Definition by_name_concrete : ConcreteClass := {|
  base := Samples.arch_class;
  override_get_disk_cache_path :=
    Some (fun self =>
            match SoftwarePackage.name self with
            | Some n => if str_truthy n then Some ("/opt/apps/" ++ n) else None
            | None => None
            end)
|}.

Definition unnamed : SoftwarePackage.t :=
  SoftwarePackage.mk (Some "x") None None READY None None None true false
    None None None "arch".

End Dispatch.

(** ** Properties of the path constants *)

Module PathsSpec.
Import Paths.

Lemma cache_path_switches : switches_on_root CachePath.
Proof.
  exists (fun a => "/var/cache/" ++ a), (fun a => "/.cache/" ++ a).
  intros [a r h u]; destruct r; reflexivity.
Qed.

Lemma config_dir_switches : switches_on_root ConfigDir.
Proof.
  exists (fun a => "/etc/" ++ a), (fun a => "/.config/" ++ a).
  intros [a r h u]; destruct r; reflexivity.
Qed.

Lemma autostart_dir_switches : switches_on_root AutostartDir.
Proof.
  exists (fun _ => "/etc/xdg/autostart"), (fun _ => "/.config/autostart").
  intros [a r h u]; destruct r; reflexivity.
Qed.

(** A constant that follows the home directory while root runs the program
    has no system path to switch to. *)
Lemma follows_home_no_switch (c : PathConst) :
  path_of c (root_env "/a") <> path_of c (root_env "/b") ->
  ~ switches_on_root c.
Proof.
  intros Hdiff (sys & rel & Hsw). apply Hdiff.
  rewrite (Hsw (root_env "/a")), (Hsw (root_env "/b")). reflexivity.
Qed.

(** A constant that stays under /tmp for an ordinary user is not relative
    to that user's home directory. *)
Lemma under_tmp_no_switch (c : PathConst) (rest : string) :
  path_of c (user_env "/a") = "/tmp/" ++ rest ->
  ~ switches_on_root c.
Proof.
  intros Htmp (sys & rel & Hsw).
  rewrite (Hsw (user_env "/a")) in Htmp. simpl in Htmp. discriminate Htmp.
Qed.

Lemma unconditional_no_switch (c : PathConst) :
  conditional c = false -> ~ switches_on_root c.
Proof.
  destruct c; simpl; intros Hc; try discriminate Hc.
  - apply follows_home_no_switch. simpl. discriminate.
  - apply follows_home_no_switch. simpl. discriminate.
  - apply (under_tmp_no_switch TempDir "bauh@ana"). reflexivity.
  - apply (under_tmp_no_switch LogsDir "bauh@ana/logs"). reflexivity.
Qed.

(** C1, as stated, does not hold: the themes directory is under the home
    directory for root too, the temporary directory is under /tmp for an
    ordinary user too, so not every constant switches on the effective
    user. *)
Lemma not_every_path_constant_switches :
  USER_THEMES_PATH (root_env "/root") = "/root/.local/share/bauh/themes" /\
  DESKTOP_ENTRIES_DIR (root_env "/root") = "/root/.local/share/applications" /\
  TEMP_DIR (user_env "/home/ana") = "/tmp/bauh@ana" /\
  LOGS_DIR (user_env "/home/ana") = "/tmp/bauh@ana/logs" /\
  ~ (forall c, switches_on_root c).
Proof.
  repeat split.
  intros Hall. apply (unconditional_no_switch UserThemesPath); [reflexivity | apply Hall].
Qed.

(** C1 (amended): exactly [CACHE_PATH], [CONFIG_DIR] and [AUTOSTART_DIR]
    switch between a system path for root and a path under the home
    directory otherwise; the other four constants have the same value
    whether or not the effective user is root: [USER_THEMES_PATH] and
    [DESKTOP_ENTRIES_DIR] are always under the home directory, [TEMP_DIR]
    and [LOGS_DIR] always under /tmp/{app}@{user}. *)
Theorem path_constants_switching (c : PathConst) :
  (switches_on_root c <-> conditional c = true) /\
  (forall app h u, path_of c (mkEnv app true h u) =
                   if conditional c
                   then match c with
                        | CachePath => "/var/cache/" ++ app
                        | ConfigDir => "/etc/" ++ app
                        | _ => "/etc/xdg/autostart"
                        end
                   else path_of c (mkEnv app false h u)) /\
  (forall app h u, path_of c (mkEnv app false h u) =
                   match c with
                   | CachePath => h ++ "/.cache/" ++ app
                   | ConfigDir => h ++ "/.config/" ++ app
                   | UserThemesPath => h ++ "/.local/share/bauh/themes"
                   | DesktopEntriesDir => h ++ "/.local/share/applications"
                   | TempDir => "/tmp/" ++ app ++ "@" ++ u
                   | LogsDir => ("/tmp/" ++ app ++ "@" ++ u) ++ "/logs"
                   | AutostartDir => h ++ "/.config/autostart"
                   end).
Proof.
  split; [| split].
  - split.
    + intros Hsw. destruct (conditional c) eqn:Hc; [reflexivity |].
      exfalso. exact (unconditional_no_switch c Hc Hsw).
    + destruct c; simpl; intros Hc; try discriminate Hc.
      * apply cache_path_switches.
      * apply config_dir_switches.
      * apply autostart_dir_switches.
  - intros app h u. destruct c; reflexivity.
  - intros app h u. destruct c; reflexivity.
Qed.

End PathsSpec.

(** ** Properties of the Python fragment *)

Module PythonFacts.
Import Python Model.




Lemma str_truthy_app_slash (a b : string) : str_truthy (a ++ "/" ++ b) = true.
Proof. destruct a; reflexivity. Qed.

Lemma priority_eqb_eq (p q : SuggestionPriority) :
  priority_eqb p q = true <-> p = q.
Proof.
  split.
  - destruct p, q; intros H; try reflexivity; discriminate H.
  - intros ->. destruct q; reflexivity.
Qed.

(** On these objects [==] is equality of the values. *)
Lemma py_eq_eq (a : PyVal) : forall b, py_eq a b = true <-> a = b.
Proof.
  induction a as [| | x | x | xs IH | p | x] using PyVal_deep_ind;
    intros b; destruct b as [| | y | y | ys | q | y]; simpl;
    try (split; [intros H; discriminate H | intros H; discriminate H]);
    try (split; reflexivity).
  - rewrite Bool.eqb_true_iff. split; [intros -> | intros [= ->]]; reflexivity.
  - rewrite String.eqb_eq. split; [intros -> | intros [= ->]]; reflexivity.
  - revert ys. induction IH as [| x xs Hx _ IHxs]; intros ys; destruct ys as [| y ys].
    + split; reflexivity.
    + split; intros H; discriminate H.
    + split; intros H; discriminate H.
    + rewrite andb_true_iff, Hx, IHxs.
      split; [intros [-> [= ->]] | intros [= -> ->]]; auto.
  - rewrite priority_eqb_eq. split; [intros -> | intros [= ->]]; reflexivity.
  - rewrite Nat.eqb_eq. split; [intros -> | intros [= ->]]; reflexivity.
Qed.

Lemma py_eq_refl (a : PyVal) : py_eq a a = true.
Proof. now apply py_eq_eq. Qed.

Lemma py_hash_completes {I : Interp} (v : PyVal) :
  completes (py_hash v) <-> hashable v = true.
Proof.
  unfold completes. destruct v; simpl; split; intros H;
    try reflexivity; try discriminate H; try (eexists; reflexivity).
  destruct H as [a Ha]. discriminate Ha.
Qed.



End PythonFacts.

(** ** Properties of the model classes *)

Module ModelSpec.
Import Python Model PythonFacts Samples.

(** *** Structural equality and hashing *)

Lemma action_eq_structural (a b : CustomSoftwareAction.t) :
  CustomSoftwareAction.__eq__ a (Instance b) = true <->
  CustomSoftwareAction.__dict__ a = CustomSoftwareAction.__dict__ b.
Proof.
  destruct a, b. unfold CustomSoftwareAction.__eq__, CustomSoftwareAction.__dict__, dict_eq.
  cbn. rewrite !andb_true_iff, !py_eq_eq. split.
  - intros H. decompose [and] H. subst. reflexivity.
  - intros [= -> -> -> -> -> -> -> -> -> -> -> ->]. repeat split.
Qed.

Lemma update_eq_structural (a b : PackageUpdate.t) :
  PackageUpdate.__eq__ a (Instance b) = true <->
  PackageUpdate.__dict__ a = PackageUpdate.__dict__ b.
Proof.
  destruct a, b. unfold PackageUpdate.__eq__, PackageUpdate.__dict__, dict_eq.
  cbn. rewrite !andb_true_iff, !py_eq_eq. split.
  - intros H. decompose [and] H. subst. reflexivity.
  - intros [= -> -> -> ->]. repeat split.
Qed.

(** C3: two [CustomSoftwareAction] objects, and two [PackageUpdate]
    objects, with the same field values are equal under [__eq__] and
    [__hash__] gives the same result on both, wherever the objects live;
    [__eq__] holds exactly when all the fields agree, and an object of
    another class is never equal. *)
Theorem equal_fields_equal_and_same_hash {I : Interp}
    (a b : CustomSoftwareAction.t) (u v : PackageUpdate.t) :
  CustomSoftwareAction.__dict__ a = CustomSoftwareAction.__dict__ b ->
  PackageUpdate.__dict__ u = PackageUpdate.__dict__ v ->
  (CustomSoftwareAction.__eq__ a (Instance b) = true /\
   CustomSoftwareAction.__hash__ a = CustomSoftwareAction.__hash__ b) /\
  (PackageUpdate.__eq__ u (Instance v) = true /\
   PackageUpdate.__hash__ u = PackageUpdate.__hash__ v) /\
  (forall x y : CustomSoftwareAction.t,
     CustomSoftwareAction.__eq__ x (Instance y) = true <->
     CustomSoftwareAction.__dict__ x = CustomSoftwareAction.__dict__ y) /\
  (forall x y : PackageUpdate.t,
     PackageUpdate.__eq__ x (Instance y) = true <->
     PackageUpdate.__dict__ x = PackageUpdate.__dict__ y) /\
  (forall w, CustomSoftwareAction.__eq__ a (Foreign w) = false) /\
  (forall w, PackageUpdate.__eq__ u (Foreign w) = false).
Proof.
  intros Hab Huv. repeat split.
  - now apply action_eq_structural.
  - unfold CustomSoftwareAction.__hash__. now rewrite Hab.
  - now apply update_eq_structural.
  - unfold PackageUpdate.__hash__. now rewrite Huv.
  - apply action_eq_structural.
  - apply action_eq_structural.
  - apply update_eq_structural.
  - apply update_eq_structural.
Qed.

(** Two "purge" actions and two updates of vim, built at different
    addresses from the same arguments: equal, with hashes 4156 and 13. *)
Lemma equal_fields_equal_and_same_hash_witness :
  CustomSoftwareAction.__eq__ (purge 1 VNone) (Instance (purge 2 VNone)) = true /\
  @CustomSoftwareAction.__hash__ toy_interp (purge 1 VNone) = Ok 4156%Z /\
  @CustomSoftwareAction.__hash__ toy_interp (purge 2 VNone) = Ok 4156%Z /\
  PackageUpdate.__eq__ (vim_update 1) (Instance (vim_update 2)) = true /\
  @PackageUpdate.__hash__ toy_interp (vim_update 2) = Ok 13%Z.
Proof.
  pose proof (@equal_fields_equal_and_same_hash toy_interp
                (purge 1 VNone) (purge 2 VNone) (vim_update 1) (vim_update 2)
                eq_refl eq_refl) as [[Ha _] [[Hu _] _]].
  split; [exact Ha |]. split; [reflexivity |]. split; [reflexivity |].
  split; [exact Hu | reflexivity].
Defined.

(** *** The default predicates of SoftwarePackage *)

(** C2: [can_be_uninstalled] returns the [installed] flag,
    [can_be_installed] its negation, and [can_be_updated] the conjunction
    of [installed] and [update]. *)
Theorem lifecycle_predicates (self : SoftwarePackage.t) :
  SoftwarePackage.can_be_uninstalled self = SoftwarePackage.installed self /\
  SoftwarePackage.can_be_installed self = negb (SoftwarePackage.installed self) /\
  SoftwarePackage.can_be_updated self =
    (SoftwarePackage.installed self && SoftwarePackage.update self).
Proof. repeat split. Qed.

(** C9: by default [has_screenshots] is the negation of [installed], so
    it is false for every installed package, and [supports_disk_cache] is
    the conjunction of [installed] and what [is_application] returns. *)
Theorem screenshots_and_disk_cache_defaults
    (cls : SoftwarePackage.Subclass) (self : SoftwarePackage.t) :
  SoftwarePackage.has_screenshots self = negb (SoftwarePackage.installed self) /\
  (SoftwarePackage.installed self = true ->
   SoftwarePackage.has_screenshots self = false) /\
  SoftwarePackage.supports_disk_cache cls self =
    (SoftwarePackage.installed self && SoftwarePackage.is_application cls self).
Proof.
  repeat split. unfold SoftwarePackage.has_screenshots. now intros ->.
Qed.

Lemma screenshots_and_disk_cache_defaults_witness :
  SoftwarePackage.has_screenshots vim = false /\
  SoftwarePackage.supports_disk_cache arch_class vim = true.
Proof.
  pose proof (screenshots_and_disk_cache_defaults arch_class vim) as [_ [Hs Hc]].
  split; [exact (Hs eq_refl) | exact Hc].
Defined.

(** *** The disk cache paths *)


Lemma default_cache_path_truthy (CACHE_DIR : string)
    (cls : SoftwarePackage.Subclass) (self : SoftwarePackage.t) :
  str_truthy (SoftwarePackage.get_disk_cache_path CACHE_DIR cls self) = true.
Proof. apply str_truthy_app_slash. Qed.

Lemma path_truthy_false (path : option string) :
  Dispatch.path_truthy path = false <-> path = None \/ path = Some "".
Proof.
  destruct path as [[| c s] |]; simpl; split; intros H; auto; try discriminate H.
  destruct H as [H | H]; discriminate H.
Qed.

(** C8, as stated, does not hold: for a class that redefines
    [get_disk_cache_path] to return [None] for a package without a name,
    the guard takes its falsy branch and both methods return [None]. *)
Lemma disk_paths_none_under_override :
  Dispatch.get_disk_cache_path "/var/cache/bauh" Dispatch.by_name_concrete
    Dispatch.unnamed = None /\
  Dispatch.get_disk_icon_path "/var/cache/bauh" Dispatch.by_name_concrete
    Dispatch.unnamed = None /\
  Dispatch.get_disk_data_path "/var/cache/bauh" Dispatch.by_name_concrete
    Dispatch.unnamed = None /\
  ~ (forall CACHE_DIR cls self,
       Dispatch.get_disk_icon_path CACHE_DIR cls self <> None /\
       Dispatch.get_disk_data_path CACHE_DIR cls self <> None).
Proof.
  split; [reflexivity |]. split; [reflexivity |]. split; [reflexivity |].
  intros Hall.
  destruct (Hall "/var/cache/bauh" Dispatch.by_name_concrete Dispatch.unnamed) as [Hi _].
  now apply Hi.
Qed.

(** C8 (amended): the [get_disk_cache_path] that [SoftwarePackage]
    defines always returns a non-empty string, so for every package whose
    class keeps it the guard never takes its falsy branch:
    [get_disk_icon_path] and [get_disk_data_path] return that path
    followed by '/icon.png' and '/data.json', never [None]. For any class,
    either method returns [None] exactly when the [get_disk_cache_path] of
    the class returns [None] or ''. *)
Theorem disk_paths_none_only_by_override (CACHE_DIR : string)
    (cls : Dispatch.ConcreteClass) (self : SoftwarePackage.t) :
  str_truthy
    (SoftwarePackage.get_disk_cache_path CACHE_DIR (Dispatch.base cls) self) = true /\
  (Dispatch.override_get_disk_cache_path cls = None ->
   Dispatch.get_disk_icon_path CACHE_DIR cls self =
     Some (SoftwarePackage.get_disk_cache_path CACHE_DIR (Dispatch.base cls) self
           ++ "/icon.png") /\
   Dispatch.get_disk_data_path CACHE_DIR cls self =
     Some (SoftwarePackage.get_disk_cache_path CACHE_DIR (Dispatch.base cls) self
           ++ "/data.json") /\
   Dispatch.get_disk_icon_path CACHE_DIR cls self <> None /\
   Dispatch.get_disk_data_path CACHE_DIR cls self <> None) /\
  (Dispatch.get_disk_icon_path CACHE_DIR cls self = None <->
   Dispatch.get_disk_cache_path CACHE_DIR cls self = None \/
   Dispatch.get_disk_cache_path CACHE_DIR cls self = Some "") /\
  (Dispatch.get_disk_data_path CACHE_DIR cls self = None <->
   Dispatch.get_disk_cache_path CACHE_DIR cls self = None \/
   Dispatch.get_disk_cache_path CACHE_DIR cls self = Some "").
Proof.
  split; [apply default_cache_path_truthy |]. split; [| split].
  - intros Hkeep.
    unfold Dispatch.get_disk_icon_path, Dispatch.get_disk_data_path,
      Dispatch.get_disk_cache_path.
    rewrite Hkeep. simpl. rewrite default_cache_path_truthy.
    repeat split; discriminate.
  - rewrite <- path_truthy_false. unfold Dispatch.get_disk_icon_path.
    destruct (Dispatch.path_truthy (Dispatch.get_disk_cache_path CACHE_DIR cls self));
      split; intros H; try reflexivity; discriminate H.
  - rewrite <- path_truthy_false. unfold Dispatch.get_disk_data_path.
    destruct (Dispatch.path_truthy (Dispatch.get_disk_cache_path CACHE_DIR cls self));
      split; intros H; try reflexivity; discriminate H.
Qed.

Lemma disk_paths_none_only_by_override_witness :
  Dispatch.get_disk_icon_path "/var/cache/bauh" Dispatch.arch_concrete vim =
    Some "/var/cache/bauh/arch/icon.png" /\
  Dispatch.get_disk_data_path "/var/cache/bauh" Dispatch.arch_concrete vim <> None.
Proof.
  pose proof (disk_paths_none_only_by_override "/var/cache/bauh" Dispatch.arch_concrete vim)
    as (_ & Hkeep & _).
  destruct (Hkeep eq_refl) as (Hi & _ & _ & Hd).
  split; [exact Hi | exact Hd].
Defined.

(** *** PackageHistory *)

(** C6: [PackageHistory.empyt(pkg)] keeps [pkg], has the empty list as
    [history] and -1 as [pkg_status_idx]. *)
Theorem empyt_history (pkg : SoftwarePackage.t) :
  PackageHistory.pkg (PackageHistory.empyt pkg) = pkg /\
  PackageHistory.history (PackageHistory.empyt pkg) = [] /\
  PackageHistory.pkg_status_idx (PackageHistory.empyt pkg) = (-1)%Z.
Proof. repeat split. Qed.

(** *** SuggestionPriority *)

Lemma lt_value (a b : SuggestionPriority) :
  lt a b = true <-> (value a < value b)%Z.
Proof. unfold lt. simpl. apply Z.ltb_lt. Qed.

Lemma gt_value (a b : SuggestionPriority) :
  gt a b = true <-> (value a > value b)%Z.
Proof. unfold gt. simpl. rewrite Z.gtb_ltb, Z.ltb_lt. lia. Qed.

(** C4: [<] and [>] on the members are the strict total order
    LOW < MEDIUM < HIGH < TOP: TOP > LOW holds, [<] is transitive,
    irreflexive and total, and [a > b] holds exactly when [b < a]. *)
Theorem priority_strict_total_order (a b c : SuggestionPriority) :
  __gt__ TOP (VPriority LOW) = VBool true /\
  (lt LOW MEDIUM = true /\ lt MEDIUM HIGH = true /\ lt HIGH TOP = true) /\
  (lt a b = true -> lt b c = true -> lt a c = true) /\
  (gt a b = true <-> lt b a = true) /\
  lt a a = false /\
  (lt a b = true \/ a = b \/ lt b a = true) /\
  (exists r, __lt__ a (VPriority b) = VBool r) /\
  (exists r, __gt__ a (VPriority b) = VBool r).
Proof.
  repeat split; try reflexivity.
  - rewrite !lt_value. lia.
  - rewrite gt_value, lt_value. lia.
  - rewrite gt_value, lt_value. lia.
  - unfold lt. simpl. apply Z.ltb_irrefl.
  - destruct a, b; auto.
  - eexists; reflexivity.
  - eexists; reflexivity.
Qed.

Lemma priority_strict_total_order_witness :
  lt LOW HIGH = true /\ gt TOP MEDIUM = true.
Proof.
  split.
  - exact (proj1 (proj2 (proj2 (priority_strict_total_order LOW MEDIUM HIGH)))
             eq_refl eq_refl).
  - exact (proj2 (proj1 (proj2 (proj2 (proj2
             (priority_strict_total_order TOP MEDIUM LOW))))) eq_refl).
Defined.

(** C10: against an operand that is not a [SuggestionPriority], [__gt__]
    and [__lt__] return [None], which is neither [False] nor
    [NotImplemented] and is falsy; so the comparison evaluates to [None]
    and the reflected method of the other operand is never asked. *)
Theorem compare_with_non_priority (p : SuggestionPriority) (x : PyVal) :
  is_priority x = false ->
  __gt__ p x = VNone /\ __lt__ p x = VNone /\
  __gt__ p x <> VBool false /\ __gt__ p x <> VNotImplemented /\
  __lt__ p x <> VBool false /\ __lt__ p x <> VNotImplemented /\
  truthy (__gt__ p x) = false /\ truthy (__lt__ p x) = false /\
  (forall reflected, compare_op (__gt__ p x) reflected = Ok VNone) /\
  (forall reflected, compare_op (__lt__ p x) reflected = Ok VNone).
Proof.
  intros Hx.
  assert (Hg : __gt__ p x = VNone) by (destruct x; try reflexivity; discriminate Hx).
  assert (Hl : __lt__ p x = VNone) by (destruct x; try reflexivity; discriminate Hx).
  rewrite Hg, Hl. repeat split; try discriminate.
Qed.

Lemma compare_with_non_priority_witness :
  __gt__ TOP (VStr "high") = VNone /\ __lt__ TOP (VStr "high") = VNone /\
  compare_op (__gt__ TOP (VStr "high")) (VBool true) = Ok VNone.
Proof.
  pose proof (compare_with_non_priority TOP (VStr "high") eq_refl)
    as (Hg & Hl & _ & _ & _ & _ & _ & _ & Hop & _).
  split; [exact Hg | split; [exact Hl | exact (Hop (VBool true))]].
Defined.

(** *** Operations that can end in an exception *)

Example split_gem_module :
  split "." "bauh.gems.arch.model" = ["bauh"; "gems"; "arch"; "model"].
Proof. reflexivity. Qed.

Example split_edges :
  split "." "" = [""] /\ split "." "a..b." = ["a"; ""; "b"; ""].
Proof. split; reflexivity. Qed.

Example arch_package_gem_name :
  new_package arch_class true false =
  Ok (SoftwarePackage.mk (Some "vim") (Some "vim") None READY (Some "9.0")
        (Some "9.1") None true false None None None "arch").
Proof. reflexivity. Qed.





End ModelSpec.

(** ** Facts about string concatenation *)

Module StringFacts.

Lemma append_cancel_l (a x y : string) : a ++ x = a ++ y -> x = y.
Proof.
  induction a as [| c a IH]; simpl; [trivial |].
  intros [= H]. now apply IH.
Qed.

Lemma length_append (a b : string) :
  String.length (a ++ b) = String.length a + String.length b.
Proof. induction a as [| c a IH]; simpl; [reflexivity | now rewrite IH]. Qed.

Lemma append_cancel_r (s : string) : forall x y, x ++ s = y ++ s -> x = y.
Proof.
  induction x as [| c x IH]; intros [| d y]; simpl; intros H.
  - reflexivity.
  - apply (f_equal String.length) in H. simpl in H. rewrite length_append in H. lia.
  - apply (f_equal String.length) in H. simpl in H. rewrite length_append in H. lia.
  - injection H as -> H. f_equal. now apply IH.
Qed.

Lemma append_not_self (x s : string) : s <> "" -> x ++ s <> x.
Proof.
  intros Hs H. apply (f_equal String.length) in H. rewrite length_append in H.
  destruct s; [now apply Hs | simpl in H; lia].
Qed.

End StringFacts.

(** ** Further properties of the path constants *)

Module PathsExtra.
Import Paths PathKinds StringFacts.

(** X1: For one application, the temporary and the log directory of two
    processes are the same exactly when the user names are the same,
    whoever is root and wherever the home directories are. *)
Theorem temp_and_logs_dir_per_user (app : string) (r1 r2 : bool)
    (h1 h2 u1 u2 : string) :
  (TEMP_DIR (mkEnv app r1 h1 u1) = TEMP_DIR (mkEnv app r2 h2 u2) <-> u1 = u2) /\
  (LOGS_DIR (mkEnv app r1 h1 u1) = LOGS_DIR (mkEnv app r2 h2 u2) <-> u1 = u2).
Proof.
  assert (Ht : TEMP_DIR (mkEnv app r1 h1 u1) = TEMP_DIR (mkEnv app r2 h2 u2) -> u1 = u2).
  { unfold TEMP_DIR. simpl. intros [= H].
    apply append_cancel_l in H. now injection H. }
  split; split.
  - exact Ht.
  - now intros ->.
  - unfold LOGS_DIR. intros H. apply append_cancel_r in H. now apply Ht.
  - now intros ->.
Qed.

(** X2: For an ordinary user, each constant that lies under the home
    directory takes the same value for two home directories only when
    they are the same directory; for root, the three constants that
    switch do not depend on the home directory at all. *)
Theorem home_relative_paths_follow_home (c : PathConst) (app h1 h2 u1 u2 : string) :
  under_home c = true ->
  (path_of c (mkEnv app false h1 u1) = path_of c (mkEnv app false h2 u2) <-> h1 = h2) /\
  (conditional c = true ->
   path_of c (mkEnv app true h1 u1) = path_of c (mkEnv app true h2 u2)).
Proof.
  intros Hc. split; [split |].
  - destruct c; simpl in *; try discriminate Hc;
      unfold CACHE_PATH, CONFIG_DIR, USER_THEMES_PATH, DESKTOP_ENTRIES_DIR,
        AUTOSTART_DIR; simpl; apply append_cancel_r.
  - intros ->. destruct c; try discriminate Hc; reflexivity.
  - destruct c; simpl; intros Hk; try discriminate Hk; reflexivity.
Qed.

Lemma home_relative_paths_follow_home_witness :
  CACHE_PATH (user_env "/home/ana") <> CACHE_PATH (user_env "/home/bob") /\
  CACHE_PATH (root_env "/root") = CACHE_PATH (root_env "/").
Proof.
  pose proof (home_relative_paths_follow_home CachePath "bauh" "/home/ana" "/home/bob"
                "ana" "ana" eq_refl) as [Hiff _].
  pose proof (home_relative_paths_follow_home CachePath "bauh" "/root" "/"
                "root" "root" eq_refl) as [_ Hroot].
  split.
  - intros Heq. apply Hiff in Heq. discriminate Heq.
  - exact (Hroot eq_refl).
Defined.

(** X3: In every environment the cache directory differs from the
    configuration and the autostart directory, the themes directory from
    the desktop-entries directory, and the log directory from the
    temporary directory that contains it. *)
Theorem path_constants_kept_apart (e : Env) :
  CACHE_PATH e <> CONFIG_DIR e /\
  CACHE_PATH e <> AUTOSTART_DIR e /\
  USER_THEMES_PATH e <> DESKTOP_ENTRIES_DIR e /\
  LOGS_DIR e <> TEMP_DIR e.
Proof.
  destruct e as [app r h u].
  assert (Hlogs : LOGS_DIR (mkEnv app r h u) <> TEMP_DIR (mkEnv app r h u))
    by (apply append_not_self; discriminate).
  unfold CACHE_PATH, CONFIG_DIR, AUTOSTART_DIR, USER_THEMES_PATH,
    DESKTOP_ENTRIES_DIR. simpl.
  repeat split.
  - destruct r; [discriminate |]. intros H. apply append_cancel_l in H. discriminate H.
  - destruct r; [discriminate |]. intros H. apply append_cancel_l in H. discriminate H.
  - intros H. apply append_cancel_l in H. discriminate H.
  - exact Hlogs.
Qed.

End PathsExtra.

(** ** Facts about [split] *)

Module SplitFacts.
Import Python.

Lemma count_cons_zero (sep c : ascii) (s : string) :
  count sep (String c s) = 0 -> Ascii.eqb c sep = false /\ count sep s = 0.
Proof.
  simpl. destruct (Ascii.eqb c sep); simpl; intros H; [discriminate H | now split].
Qed.

(** A string without the separator is its own single piece. *)
Lemma split_no_sep (sep : ascii) (x : string) :
  count sep x = 0 -> split sep x = [x].
Proof.
  induction x as [| c x IH]; [reflexivity |].
  intros H. apply count_cons_zero in H as [Hc Hx].
  simpl. now rewrite Hc, (IH Hx).
Qed.

(** The first piece ends at the first separator. *)
Lemma split_first_piece (sep : ascii) (x y : string) :
  count sep x = 0 -> split sep (x ++ String sep y) = x :: split sep y.
Proof.
  induction x as [| c x IH]; simpl.
  - intros _. now rewrite Ascii.eqb_refl.
  - intros H. apply (count_cons_zero sep c x) in H as [Hc Hx].
    now rewrite Hc, (IH Hx).
Qed.

(** No piece contains the separator. *)
Lemma split_pieces_no_sep (sep : ascii) (s : string) :
  Forall (fun piece => count sep piece = 0) (split sep s).
Proof.
  induction s as [| c s IH]; simpl.
  - now constructor.
  - destruct (Ascii.eqb c sep) eqn:Hc.
    + now constructor.
    + destruct (split sep s) as [| piece rest].
      * constructor; [simpl; now rewrite Hc | constructor].
      * inversion IH as [| ? ? Hp Hr]; subst.
        constructor; [simpl; now rewrite Hc | exact Hr].
Qed.

Lemma append_empty_r (s : string) : s ++ "" = s.
Proof. induction s as [| c s IH]; simpl; [reflexivity | now rewrite IH]. Qed.

Lemma last_char_append (x s : string) :
  s <> "" -> StringOps.last_char (x ++ s) = StringOps.last_char s.
Proof.
  intros Hs. induction x as [| c x IH]; simpl; [reflexivity |].
  destruct (x ++ s) eqn:Hxs; [| exact IH].
  destruct x; simpl in Hxs; [now elim Hs | discriminate Hxs].
Qed.

End SplitFacts.

(** ** Further properties of SoftwarePackage *)

Module PackageExtra.
Import Python Model PythonFacts Samples StringFacts SplitFacts.

(** X4: The constructor of a class defined in the module [p.q.g] or
    [p.q.g.rest], where [p], [q] and [g] contain no dot, completes, keeps
    the twelve arguments as they are and sets [gem_name] to [g]. *)
Theorem gem_name_is_third_segment (cls : SoftwarePackage.Subclass)
    (id version name description latest_version icon_url : option string)
    (status : PackageStatus) (installed update : bool) (size : option Z)
    (categories : option (list string)) (license : option string)
    (p q g : string) (rest : option string) :
  count "." p = 0 -> count "." q = 0 -> count "." g = 0 ->
  SoftwarePackage.__module__ cls =
    p ++ "." ++ q ++ "." ++ g ++
    match rest with Some r => "." ++ r | None => "" end ->
  SoftwarePackage.__init__ cls id version name description latest_version
    icon_url status installed update size categories license =
  Ok (SoftwarePackage.mk id name description status version latest_version
        icon_url installed update size categories license g).
Proof.
  intros Hp Hq Hg Hmod. unfold SoftwarePackage.__init__. rewrite Hmod.
  change (p ++ "." ++ q ++ "." ++ g ++ match rest with Some r => "." ++ r | None => "" end)
    with (p ++ String "." (q ++ String "." (g ++ match rest with
                                                  | Some r => String "." r
                                                  | None => ""
                                                  end))).
  rewrite (split_first_piece "." p _ Hp), (split_first_piece "." q _ Hq).
  destruct rest as [r |].
  - rewrite (split_first_piece "." g _ Hg). reflexivity.
  - rewrite append_empty_r, (split_no_sep "." g Hg). reflexivity.
Qed.

Lemma gem_name_is_third_segment_witness :
  new_package arch_class true true = Ok vim.
Proof.
  exact (gem_name_is_third_segment arch_class (Some "vim") (Some "9.0") (Some "vim")
           None (Some "9.1") None READY true true None None None
           "bauh" "gems" "arch" (Some "model") eq_refl eq_refl eq_refl eq_refl).
Defined.

(** X5: Whenever the constructor completes, [gem_name] contains no dot, the
    module name has at least three parts, and every other attribute is
    the argument given for it. *)
Theorem constructed_package_attributes (cls : SoftwarePackage.Subclass)
    (id version name description latest_version icon_url : option string)
    (status : PackageStatus) (installed update : bool) (size : option Z)
    (categories : option (list string)) (license : option string)
    (self : SoftwarePackage.t) :
  SoftwarePackage.__init__ cls id version name description latest_version
    icon_url status installed update size categories license = Ok self ->
  count "." (SoftwarePackage.gem_name self) = 0 /\
  2 < length (split "." (SoftwarePackage.__module__ cls)) /\
  self = SoftwarePackage.mk id name description status version latest_version
           icon_url installed update size categories license
           (SoftwarePackage.gem_name self).
Proof.
  unfold SoftwarePackage.__init__, getitem.
  destruct (nth_error (split "." (SoftwarePackage.__module__ cls)) 2) as [gem |] eqn:Hn;
    simpl; intros [= <-]; simpl.
  split; [| split; [| reflexivity]].
  - pose proof (split_pieces_no_sep "." (SoftwarePackage.__module__ cls)) as Hall.
    rewrite Forall_forall in Hall. apply Hall. eapply nth_error_In. exact Hn.
  - apply nth_error_Some. rewrite Hn. discriminate.
Qed.

Lemma constructed_package_attributes_witness :
  count "." (SoftwarePackage.gem_name vim) = 0 /\
  2 < length (split "." (SoftwarePackage.__module__ arch_class)).
Proof.
  pose proof (constructed_package_attributes arch_class (Some "vim") (Some "9.0")
                (Some "vim") None (Some "9.1") None READY true true None None None
                vim eq_refl) as (Hdot & Hlen & _).
  split; [exact Hdot | exact Hlen].
Defined.

Lemma cache_path_same_type (CACHE_DIR : string) (cls cls' : SoftwarePackage.Subclass)
    (a b : SoftwarePackage.t) :
  SoftwarePackage.get_disk_cache_path CACHE_DIR cls a =
  SoftwarePackage.get_disk_cache_path CACHE_DIR cls' b <->
  SoftwarePackage.get_type cls a = SoftwarePackage.get_type cls' b.
Proof.
  unfold SoftwarePackage.get_disk_cache_path. split.
  - intros H. apply append_cancel_l in H. now injection H.
  - now intros ->.
Qed.

(** X6: The default cache, icon and data paths of two packages, of the same
    or of different subclasses, coincide exactly when [get_type] returns
    the same string for both: packages of one type share one icon file
    and one data file, packages of different types never do. *)
Theorem disk_paths_depend_on_type_only (CACHE_DIR : string)
    (cls cls' : SoftwarePackage.Subclass) (a b : SoftwarePackage.t) :
  (SoftwarePackage.get_disk_cache_path CACHE_DIR cls a =
   SoftwarePackage.get_disk_cache_path CACHE_DIR cls' b <->
   SoftwarePackage.get_type cls a = SoftwarePackage.get_type cls' b) /\
  (SoftwarePackage.get_disk_icon_path CACHE_DIR cls a =
   SoftwarePackage.get_disk_icon_path CACHE_DIR cls' b <->
   SoftwarePackage.get_type cls a = SoftwarePackage.get_type cls' b) /\
  (SoftwarePackage.get_disk_data_path CACHE_DIR cls a =
   SoftwarePackage.get_disk_data_path CACHE_DIR cls' b <->
   SoftwarePackage.get_type cls a = SoftwarePackage.get_type cls' b).
Proof.
  split; [apply cache_path_same_type |].
  unfold SoftwarePackage.get_disk_icon_path, SoftwarePackage.get_disk_data_path.
  unfold SoftwarePackage.get_disk_cache_path at 1 3 5 7.
  rewrite !str_truthy_app_slash.
  split; rewrite <- (cache_path_same_type CACHE_DIR cls cls' a b); split.
  - intros [= H]. now apply append_cancel_r in H.
  - now intros ->.
  - intros [= H]. now apply append_cancel_r in H.
  - now intros ->.
Qed.

(** X7: whenever [get_disk_icon_path] returns a string, no
    [get_disk_data_path] returns that string, whatever the two packages,
    their classes (redefining [get_disk_cache_path] or not) and the cache
    roots are; and the string that either method returns is never what
    the [get_disk_cache_path] of the package returned. *)
Theorem icon_and_data_files_kept_apart (CACHE_DIR CACHE_DIR' : string)
    (cls cls' : Dispatch.ConcreteClass) (a b : SoftwarePackage.t) :
  (forall s, Dispatch.get_disk_icon_path CACHE_DIR cls a = Some s ->
             Dispatch.get_disk_data_path CACHE_DIR' cls' b <> Some s) /\
  (forall s, Dispatch.get_disk_icon_path CACHE_DIR cls a = Some s ->
             Dispatch.get_disk_cache_path CACHE_DIR cls a <> Some s) /\
  (forall s, Dispatch.get_disk_data_path CACHE_DIR cls a = Some s ->
             Dispatch.get_disk_cache_path CACHE_DIR cls a <> Some s).
Proof.
  unfold Dispatch.get_disk_icon_path, Dispatch.get_disk_data_path.
  destruct (Dispatch.get_disk_cache_path CACHE_DIR cls a) as [pa |];
    destruct (Dispatch.get_disk_cache_path CACHE_DIR' cls' b) as [pb |]; simpl;
    repeat split; intros s;
    try destruct (str_truthy pa); try destruct (str_truthy pb);
    intros Hs; try discriminate Hs; injection Hs as <-; try discriminate.
  all: intros [= H].
  all: try (apply (f_equal StringOps.last_char) in H;
            rewrite !last_char_append in H by discriminate; discriminate H).
  all: try (symmetry in H; revert H; apply append_not_self; discriminate).
Qed.

Lemma icon_and_data_files_kept_apart_witness :
  Dispatch.get_disk_data_path "/var/cache/bauh" Dispatch.by_name_concrete vim <>
  Some "/var/cache/bauh/arch/icon.png".
Proof.
  exact (proj1 (icon_and_data_files_kept_apart "/var/cache/bauh" "/var/cache/bauh"
                  Dispatch.arch_concrete Dispatch.by_name_concrete vim vim)
           "/var/cache/bauh/arch/icon.png" eq_refl).
Defined.

(** X8: How the default predicates go together: a package can be installed
    exactly when it cannot be uninstalled; nothing that can be updated or
    that supports the disk cache can be installed; screenshots are
    offered exactly for what can be installed. *)
Theorem default_predicates_consistent (cls : SoftwarePackage.Subclass)
    (self : SoftwarePackage.t) :
  SoftwarePackage.can_be_installed self =
    negb (SoftwarePackage.can_be_uninstalled self) /\
  SoftwarePackage.can_be_updated self && SoftwarePackage.can_be_installed self = false /\
  SoftwarePackage.can_be_updated self &&
    negb (SoftwarePackage.can_be_uninstalled self) = false /\
  SoftwarePackage.has_screenshots self = SoftwarePackage.can_be_installed self /\
  SoftwarePackage.supports_disk_cache cls self &&
    SoftwarePackage.can_be_installed self = false /\
  SoftwarePackage.supports_disk_cache cls self &&
    SoftwarePackage.has_screenshots self = false.
Proof.
  unfold SoftwarePackage.can_be_installed, SoftwarePackage.can_be_uninstalled,
    SoftwarePackage.can_be_updated, SoftwarePackage.has_screenshots,
    SoftwarePackage.supports_disk_cache.
  destruct (SoftwarePackage.installed self), (SoftwarePackage.update self),
    (SoftwarePackage.is_application cls self); repeat split.
Qed.

End PackageExtra.

(** ** Further properties of equality, hashing and text forms *)

Module ValueExtra.
Import Python Model PythonFacts Samples StringFacts Text.

(** The sum of the hashes does not depend on the order of the values:
    with an unhashable value it is TypeError in any order. *)
Lemma sum_hashes_permutation {I : Interp} (vs ws : list PyVal) :
  Permutation vs ws -> forall acc, sum_hashes acc vs = sum_hashes acc ws.
Proof.
  induction 1 as [| x vs ws _ IH | x y vs | vs ws us _ IH1 _ IH2]; intros acc.
  - reflexivity.
  - simpl. destruct (py_hash x); simpl; [apply IH | reflexivity].
  - simpl. destruct (py_hash x) as [hx | ex] eqn:Hx, (py_hash y) as [hy | ey] eqn:Hy; simpl.
    + f_equal. lia.
    + reflexivity.
    + reflexivity.
    + destruct x; try discriminate Hx. destruct y; try discriminate Hy.
      simpl in Hx, Hy. congruence.
  - now rewrite IH1.
Qed.

(** X9: [__hash__] only sees the multiset of the field values: two actions,
    or two updates, whose values are the same up to their order have the
    same hash, although [__eq__] tells them apart as soon as one
    attribute differs. *)
Theorem hash_ignores_which_field_holds_a_value {I : Interp}
    (a b : CustomSoftwareAction.t) (u v : PackageUpdate.t) :
  Permutation (dict_values (CustomSoftwareAction.__dict__ a))
              (dict_values (CustomSoftwareAction.__dict__ b)) ->
  Permutation (dict_values (PackageUpdate.__dict__ u))
              (dict_values (PackageUpdate.__dict__ v)) ->
  CustomSoftwareAction.__hash__ a = CustomSoftwareAction.__hash__ b /\
  PackageUpdate.__hash__ u = PackageUpdate.__hash__ v.
Proof.
  intros Hab Huv. split.
  - apply sum_hashes_permutation, Hab.
  - apply sum_hashes_permutation, Huv.
Qed.

(** The update of "vim" named "gvim" and the update of "gvim" named
    "vim" are different updates with one hash. *)
Lemma hash_ignores_which_field_holds_a_value_witness :
  @PackageUpdate.__hash__ toy_interp
    (PackageUpdate.__init__ 1 (VStr "vim") (VStr "9.1") (VStr "arch") (VStr "gvim")) =
  @PackageUpdate.__hash__ toy_interp
    (PackageUpdate.__init__ 2 (VStr "gvim") (VStr "9.1") (VStr "arch") (VStr "vim")) /\
  PackageUpdate.__eq__
    (PackageUpdate.__init__ 1 (VStr "vim") (VStr "9.1") (VStr "arch") (VStr "gvim"))
    (Instance (PackageUpdate.__init__ 2 (VStr "gvim") (VStr "9.1") (VStr "arch")
                 (VStr "vim"))) = false.
Proof.
  split; [| reflexivity].
  exact (proj2 (@hash_ignores_which_field_holds_a_value toy_interp
                  (purge 1 VNone) (purge 2 VNone)
                  (PackageUpdate.__init__ 1 (VStr "vim") (VStr "9.1") (VStr "arch")
                     (VStr "gvim"))
                  (PackageUpdate.__init__ 2 (VStr "gvim") (VStr "9.1") (VStr "arch")
                     (VStr "vim"))
                  (Permutation_refl _) (perm_swap _ _ _))).
Defined.

Lemma action_dict_eq (a b : CustomSoftwareAction.t) :
  CustomSoftwareAction.__eq__ a (Instance b) = true <->
  CustomSoftwareAction.__dict__ a = CustomSoftwareAction.__dict__ b.
Proof.
  destruct a, b. unfold CustomSoftwareAction.__eq__, CustomSoftwareAction.__dict__, dict_eq.
  cbn. rewrite !andb_true_iff, !py_eq_eq. split.
  - intros H. decompose [and] H. subst. reflexivity.
  - intros [= -> -> -> -> -> -> -> -> -> -> -> ->]. repeat split.
Qed.

Lemma update_dict_eq (a b : PackageUpdate.t) :
  PackageUpdate.__eq__ a (Instance b) = true <->
  PackageUpdate.__dict__ a = PackageUpdate.__dict__ b.
Proof.
  destruct a, b. unfold PackageUpdate.__eq__, PackageUpdate.__dict__, dict_eq.
  cbn. rewrite !andb_true_iff, !py_eq_eq. split.
  - intros H. decompose [and] H. subst. reflexivity.
  - intros [= -> -> -> ->]. repeat split.
Qed.

(** X10: [__eq__] of both classes is reflexive, symmetric and transitive, and
    objects it calls equal have the same hash, as sets and dict keys
    require. *)
Theorem eq_is_equivalence_and_agrees_with_hash {I : Interp}
    (a b c : CustomSoftwareAction.t) (u v w : PackageUpdate.t) :
  (CustomSoftwareAction.__eq__ a (Instance a) = true /\
   CustomSoftwareAction.__eq__ a (Instance b) =
     CustomSoftwareAction.__eq__ b (Instance a) /\
   (CustomSoftwareAction.__eq__ a (Instance b) = true ->
    CustomSoftwareAction.__eq__ b (Instance c) = true ->
    CustomSoftwareAction.__eq__ a (Instance c) = true) /\
   (CustomSoftwareAction.__eq__ a (Instance b) = true ->
    CustomSoftwareAction.__hash__ a = CustomSoftwareAction.__hash__ b)) /\
  (PackageUpdate.__eq__ u (Instance u) = true /\
   PackageUpdate.__eq__ u (Instance v) = PackageUpdate.__eq__ v (Instance u) /\
   (PackageUpdate.__eq__ u (Instance v) = true ->
    PackageUpdate.__eq__ v (Instance w) = true ->
    PackageUpdate.__eq__ u (Instance w) = true) /\
   (PackageUpdate.__eq__ u (Instance v) = true ->
    PackageUpdate.__hash__ u = PackageUpdate.__hash__ v)).
Proof.
  split; repeat split.
  - now apply action_dict_eq.
  - apply Bool.eq_true_iff_eq. rewrite !action_dict_eq. split; congruence.
  - rewrite !action_dict_eq. congruence.
  - rewrite action_dict_eq. unfold CustomSoftwareAction.__hash__. now intros ->.
  - now apply update_dict_eq.
  - apply Bool.eq_true_iff_eq. rewrite !update_dict_eq. split; congruence.
  - rewrite !update_dict_eq. congruence.
  - rewrite update_dict_eq. unfold PackageUpdate.__hash__. now intros ->.
Qed.

Lemma eq_is_equivalence_and_agrees_with_hash_witness :
  @CustomSoftwareAction.__hash__ toy_interp (purge 1 VNone) =
  @CustomSoftwareAction.__hash__ toy_interp (purge 2 VNone) /\
  @PackageUpdate.__hash__ toy_interp (vim_update 1) =
  @PackageUpdate.__hash__ toy_interp (vim_update 2).
Proof.
  pose proof (@eq_is_equivalence_and_agrees_with_hash toy_interp
                (purge 1 VNone) (purge 2 VNone) (purge 3 VNone)
                (vim_update 1) (vim_update 2) (vim_update 3))
    as [(_ & _ & _ & Ha) (_ & _ & _ & Hu)].
  split; [exact (Ha eq_refl) | exact (Hu eq_refl)].
Defined.

(** *** Comparisons *)

(** X11: With a [SuggestionPriority] on either side, [<] and [>] never end in
    the TypeError that unorderable operands get: the two methods never
    return [NotImplemented], so whatever the other operand's own method
    returns, the comparison yields a value. *)
Theorem comparison_never_raises (p : SuggestionPriority) (x answer : PyVal) :
  completes (compare_op (__gt__ p x) answer) /\
  completes (compare_op (__lt__ p x) answer) /\
  completes (compare_op answer (__gt__ p x)) /\
  completes (compare_op answer (__lt__ p x)) /\
  compare_op VNotImplemented (__gt__ p x) = Ok (__gt__ p x) /\
  compare_op VNotImplemented (__lt__ p x) = Ok (__lt__ p x).
Proof.
  unfold completes.
  repeat split; destruct x; simpl; try (eexists; reflexivity);
    destruct answer; simpl; eexists; reflexivity.
Qed.

(** X12: LOW is the least and TOP the greatest member, and [<] and [>] are
    asymmetric and exclude each other. *)
Theorem priority_extremes (a b : SuggestionPriority) :
  lt a LOW = false /\ gt a TOP = false /\
  lt LOW a = negb (priority_eqb a LOW) /\
  gt TOP a = negb (priority_eqb a TOP) /\
  lt a b && lt b a = false /\
  gt a b && gt b a = false /\
  lt a b && gt a b = false /\
  (priority_eqb a b = true <-> lt a b = false /\ gt a b = false).
Proof.
  destruct a, b; repeat split; intros; try reflexivity; try discriminate;
    match goal with H : _ /\ _ |- _ => destruct H; discriminate end.
Qed.

(** *** Text forms *)

Lemma append_assoc (a b c : string) : (a ++ b) ++ c = a ++ b ++ c.
Proof. induction a as [| x a IH]; simpl; [reflexivity | now rewrite IH]. Qed.

(** X13: [PackageUpdate.__str__] lists the four attributes in the alphabetical
    order of their names (id, name, type, version), not in the order the
    constructor assigns them. *)
Theorem update_str_alphabetical {D : Display} (class_name : string)
    (self : PackageUpdate.t) :
  update_str class_name self =
  class_name ++ " (id=" ++ py_str (PackageUpdate.id self)
    ++ ", name=" ++ py_str (PackageUpdate.name self)
    ++ ", type=" ++ py_str (PackageUpdate.type self)
    ++ ", version=" ++ py_str (PackageUpdate.version self) ++ ")" /\
  map fst (sorted_items (PackageUpdate.__dict__ self)) = ["id"; "name"; "type"; "version"] /\
  map fst (PackageUpdate.__dict__ self) = ["id"; "name"; "version"; "type"].
Proof.
  destruct self as [addr i n v t]. unfold update_str. cbn.
  repeat (rewrite !append_assoc; cbn). repeat split.
Qed.

End ValueExtra.
